(** * crazydeals: the slug-rewriting GET handler of [server.py]

    [SlugRewriteHandler.do_GET] looks at the parsed path and the raw query
    string of the request target and leaves through one of three doors:

    - it overwrites [self.path] with ["/product.html"] (plus the query) and
      hands over to the static file handler (the slug rewrite);
    - it answers [send_error(404, "Product not found")] (the two blocks);
    - it hands over to the static file handler with [self.path] untouched.

    The handler is embedded with explicit state passing: the only attribute
    [do_GET] reads or writes is [self.path].  [http.server] decodes the
    request line as ISO-8859-1, so every character of the target is one byte
    and Stdlib's [string] is the type of the strings involved.  The dict of
    [parse_qs] is a [gmap]. *)

From Stdlib Require Import Ascii String List Bool Arith Lia.
From stdpp Require Import base strings gmap list.

Local Open Scope string_scope.

(** ** Python's [str] operations used by the handler *)

Module Str.

(** [s.startswith(prefix)] *)
Fixpoint startswith (s prefix : string) {struct prefix} : bool :=
  match prefix with
  | EmptyString => true
  | String a prefix' =>
      match s with
      | EmptyString => false
      | String b s' => Ascii.eqb a b && startswith s' prefix'
      end
  end.

(** [sub in s] *)
Fixpoint contains (sub s : string) {struct s} : bool :=
  startswith s sub
  || match s with
     | EmptyString => false
     | String _ s' => contains sub s'
     end.

(** [s.partition(sep)] for a one-character separator; [None] when [sep]
    does not occur. *)
Fixpoint partition (sep : ascii) (s : string) : option (string * string) :=
  match s with
  | EmptyString => None
  | String c s' =>
      if Ascii.eqb c sep then Some (EmptyString, s')
      else match partition sep s' with
           | Some (before, after) => Some (String c before, after)
           | None => None
           end
  end.

(** [s.split(sep, maxsplit)] for a one-character separator: at most
    [maxsplit] cuts, from the left. *)
Fixpoint split (sep : ascii) (maxsplit : nat) (s : string) : list string :=
  match maxsplit with
  | O => [s]
  | S n =>
      match partition sep s with
      | None => [s]
      | Some (before, after) => before :: split sep n after
      end
  end.

(** [s.split(sep)]: no limit on the cuts; [s] holds at most
    [String.length s] separators. *)
Definition split_all (sep : ascii) (s : string) : list string :=
  split sep (String.length s) s.

(** [s.replace(old, new)] for one-character [old] and [new]. *)
Fixpoint replace (old new : ascii) (s : string) : string :=
  match s with
  | EmptyString => EmptyString
  | String c s' =>
      String (if Ascii.eqb c old then new else c) (replace old new s')
  end.

(** Truth value of a string: [bool(s)], false exactly for [""]. *)
Definition truthy (s : string) : bool :=
  match s with
  | EmptyString => false
  | String _ _ => true
  end.

End Str.

(** ** [urllib.parse] *)

(** The six-field result of [urllib.parse.urlparse]. *)
Module ParseResult.
Record t : Type := mk
  { scheme : string;
    netloc : string;
    path : string;
    params : string;
    query : string;
    fragment : string }.
End ParseResult.

(** A reading of [urlparse] for request targets of the shape
    [path?query#fragment] (no scheme, no authority, no [;params]): the
    fragment is cut at the first [#], then the query at the first [?].  It
    instantiates the abstract [urlparse] below in concrete runs of the
    handler. *)
Definition urlparse_origin_form (url : string) : ParseResult.t :=
  let '(url, fragment) :=
    match Str.partition "#" url with
    | Some (before, after) => (before, after)
    | None => (url, "")
    end in
  let '(url, query) :=
    match Str.partition "?" url with
    | Some (before, after) => (before, after)
    | None => (url, "")
    end in
  ParseResult.mk "" "" url "" query fragment.

(** [unquote] on strings without [%]: the string itself. *)
Definition unquote_plain (s : string) : string := s.

(** The query component of a request target, as the static file handler
    separates it from the path: what follows the first [?]. *)
Definition target_query (target : string) : string :=
  match Str.partition "?" target with
  | Some (_, after) => after
  | None => ""
  end.

(** The attribute of the request handler that [do_GET] reads and writes. *)
Record SlugRewriteHandler : Type := { path : string }.

(** How [do_GET] ends: in the parent class's [do_GET] (static file serving,
    which reads [self.path]) or in [send_error]. *)
Inductive action : Type :=
| super_do_GET
| send_error (code : nat) (message : string).

(** ** [main]: the port taken from the command line *)

(** The exceptions raised while the port is read. *)
Inductive exception : Type :=
| ValueError
| IndexError.

Notation "'let!' x ':=' c 'in' k" :=
  (match c with
   | inl e => inl e
   | inr x => k
   end)
  (at level 10, x name, c at level 100, k at level 200, only parsing).

(** [l.index(x)]: the first position of [x]; [ValueError] when [x] is not
    in [l]. *)
Fixpoint list_index (x : string) (l : list string) : exception + nat :=
  match l with
  | [] => inl ValueError
  | y :: l' =>
      if String.eqb y x then inr O
      else let! i := list_index x l' in inr (S i)
  end.

(** [l[i]] for an index [i >= 0]; [IndexError] out of range. *)
Definition getitem (l : list string) (i : nat) : exception + string :=
  match l !! i with
  | Some a => inr a
  | None => inl IndexError
  end.

(** The module-level [PORT = 8000]. *)
Definition PORT : Z := 8000.

(** [int(s)] and [s.isdigit()] on strings of ASCII decimal digits, for
    concrete runs: the value of a non-empty string of digits, and nothing
    else (Python's [int] also reads a sign, blanks and underscores, which
    the runs below do not use). *)
Definition is_decimal (c : ascii) : bool :=
  (48 <=? nat_of_ascii c)%nat && (nat_of_ascii c <=? 57)%nat.

Fixpoint all_decimal (s : string) : bool :=
  match s with
  | EmptyString => true
  | String c s' => is_decimal c && all_decimal s'
  end.

Definition isdigit_ascii (s : string) : bool :=
  Str.truthy s && all_decimal s.

Fixpoint decimal_value (acc : Z) (s : string) : Z :=
  match s with
  | EmptyString => acc
  | String c s' =>
      decimal_value (10 * acc + Z.of_nat (nat_of_ascii c - 48))%Z s'
  end.

Definition int_decimal (s : string) : option Z :=
  if isdigit_ascii s then Some (decimal_value 0 s) else None.

Section Startup.

(** [int] on a [str], [None] standing for the [ValueError] it raises on a
    string that is no integer literal, and [str.isdigit] are Python's;
    [sys.argv] holds arbitrary text, and the two are left open. *)
Variable int : string -> option Z.
Variable isdigit : string -> bool.

Definition int_or_raise (s : string) : exception + Z :=
  match int s with
  | Some n => inr n
  | None => inl ValueError
  end.

(** [main], lines 59-69: from the global [PORT] and [sys.argv] to the
    global [PORT] and the lines printed when line 71 is reached, or the
    exception that leaves [main].  The [try] of lines 63-67 catches
    [ValueError] and [IndexError]; the [int] of line 69 is outside any
    [try]. *)
Definition main_select_port (PORT : Z) (argv : list string)
  : exception + (Z * list string) :=
  if (1 <? length argv)%nat then
    if bool_decide ("--port" ∈ argv) then
      match
        (let! port_index := list_index "--port" argv in
         let! arg := getitem argv (port_index + 1) in
         int_or_raise arg)
      with
      | inr n => inr (n, [])
      | inl ValueError | inl IndexError =>
          inr (PORT, ["Invalid port number. Using default port 8000."])
      end
    else
      let! arg := getitem argv 1 in
      if isdigit arg
      then let! n := int_or_raise arg in inr (n, [])
      else inr (PORT, [])
  else inr (PORT, []).

End Startup.

Section Handler.

(** [urllib.parse.urlparse] and [urllib.parse.unquote] belong to Python's
    standard library, not to this repository; the handler is verified for
    every behaviour they may have as total functions (a target on which
    [urlparse] raises never reaches the tests of [do_GET]). *)
Variable urlparse : string -> ParseResult.t.
Variable unquote : string -> string.

(** [urllib.parse.parse_qsl(qs)] with its default arguments
    ([keep_blank_values=False], [strict_parsing=False], [separator='&']):
    empty fields, fields without [=] and fields with a blank value are
    skipped. *)
Definition parse_qsl (qs : string) : list (string * string) :=
  flat_map
    (fun name_value =>
       if negb (Str.truthy name_value) then []
       else
         match Str.split "=" 1 name_value with
         | [name; value] =>
             if (0 <? String.length value)%nat
             then [(unquote (Str.replace "+" " " name),
                    unquote (Str.replace "+" " " value))]
             else []
         | _ => []
         end)
    (Str.split_all "&" qs).

(** [urllib.parse.parse_qs(qs)]: the pairs of [parse_qsl] gathered in a
    dict from name to the list of its values. *)
Definition parse_qs (qs : string) : gmap string (list string) :=
  foldl
    (fun (parsed_result : gmap string (list string)) '(name, value) =>
       match parsed_result !! name with
       | Some values => <[name := (values ++ [value])%list]> parsed_result
       | None => <[name := [value]]> parsed_result
       end)
    ∅ (parse_qsl qs).

(** [key in d] *)
Definition dict_contains (key : string) (d : gmap string (list string)) : bool :=
  bool_decide (is_Some (d !! key)).

(** ** The handler *)

(** The value assigned to [self.path] on the rewrite:
    ['/product.html' + (f'?{query}' if query else '')]. *)
Definition rewritten_path (query : string) : string :=
  "/product.html" +:+ (if Str.truthy query then "?" +:+ query else "").

(** [SlugRewriteHandler.do_GET] (lines 23-51): the handler after the call
    and the action the call ends in.  The length test of line 32 is nested
    in the prefix test of line 29; when either fails, control falls to the
    two blocks and the default. *)
Definition do_GET (self : SlugRewriteHandler)
  : SlugRewriteHandler * action :=
  let parsed_path := urlparse (path self) in
  let path := ParseResult.path parsed_path in
  if (Str.startswith path "/product/" || Str.startswith path "/products/")
     && (3 <=? length (Str.split "/" 2 path))%nat
  then
    (Build_SlugRewriteHandler
       (rewritten_path (ParseResult.query parsed_path)),
     super_do_GET)
  else
    let query_params := parse_qs (ParseResult.query parsed_path) in
    if dict_contains "id" query_params
       && (Str.contains "product" path || Str.contains "products" path)
    then (self, send_error 404 "Product not found")
    else if String.eqb path "/product.html"
            && negb (Str.truthy (ParseResult.query parsed_path))
    then (self, send_error 404 "Product not found")
    else (self, super_do_GET).

(** ** The guards of the three rules, as [do_GET] tests them *)

(** Lines 29-32: the prefix test and the length test on the split. *)
Definition slug_rule (path : string) : bool :=
  (Str.startswith path "/product/" || Str.startswith path "/products/")
  && (3 <=? length (Str.split "/" 2 path))%nat.

(** Line 40. *)
Definition id_rule (path query : string) : bool :=
  dict_contains "id" (parse_qs query)
  && (Str.contains "product" path || Str.contains "products" path).

(** Line 46. *)
Definition bare_rule (path query : string) : bool :=
  String.eqb path "/product.html" && negb (Str.truthy query).

(** The parsed path and the raw query string of the request. *)
Definition request_path (self : SlugRewriteHandler) : string :=
  ParseResult.path (urlparse (path self)).

Definition request_query (self : SlugRewriteHandler) : string :=
  ParseResult.query (urlparse (path self)).

(** The three ways out of [do_GET]. *)
Definition Rewrite (forwardedQuery : string) : SlugRewriteHandler * action :=
  ({| path := rewritten_path forwardedQuery |}, super_do_GET).

Definition Reject (self : SlugRewriteHandler) : SlugRewriteHandler * action :=
  (self, send_error 404 "Product not found").

Definition PassThrough (self : SlugRewriteHandler)
  : SlugRewriteHandler * action :=
  (self, super_do_GET).

(** ** Facts on the string operations *)

Lemma startswith_app (prefix rest : string) :
  Str.startswith (prefix +:+ rest) prefix = true.
Proof.
  induction prefix as [|a prefix IH]; simpl; [reflexivity|].
  rewrite Ascii.eqb_refl. exact IH.
Qed.

Lemma startswith_inv (prefix s : string) :
  Str.startswith s prefix = true -> exists rest, s = prefix +:+ rest.
Proof.
  revert s. induction prefix as [|a prefix IH]; intros s H.
  - exists s. reflexivity.
  - destruct s as [|b s]; simpl in H; [discriminate|].
    apply andb_true_iff in H as [Hab Hs].
    apply Ascii.eqb_eq in Hab. subst b.
    destruct (IH _ Hs) as [rest ->].
    exists rest. reflexivity.
Qed.

Lemma contains_unfold (sub s : string) :
  Str.contains sub s =
  Str.startswith s sub
  || match s with
     | EmptyString => false
     | String _ s' => Str.contains sub s'
     end.
Proof. destruct s; reflexivity. Qed.

(** [sub in s] is the substring relation. *)
Lemma contains_spec (sub s : string) :
  Str.contains sub s = true <-> exists a b, s = a +:+ sub +:+ b.
Proof.
  split.
  - induction s as [|c s IH]; rewrite contains_unfold; intros H;
      apply orb_true_iff in H as [H|H].
    + apply startswith_inv in H as [b ->]. exists "", b. reflexivity.
    + discriminate.
    + apply startswith_inv in H as [b ->]. exists "", b. reflexivity.
    + destruct (IH H) as (a & b & ->). exists (String c a), b. reflexivity.
  - intros (a & b & ->). induction a as [|c a IH]; rewrite contains_unfold.
    + change ("" +:+ sub +:+ b) with (sub +:+ b).
      rewrite startswith_app. reflexivity.
    + change (String c a +:+ sub +:+ b) with (String c (a +:+ sub +:+ b)).
      cbv iota. rewrite IH. apply orb_true_r.
Qed.

Lemma truthy_false (s : string) : Str.truthy s = false <-> s = "".
Proof. destruct s; simpl; split; congruence. Qed.

Lemma truthy_true (s : string) : Str.truthy s = true <-> s <> "".
Proof. destruct s; simpl; split; congruence. Qed.

(** After either prefix the split at two cuts has exactly three parts,
    whatever follows the prefix. *)
Lemma split_after_prefix (path : string) :
  Str.startswith path "/product/" || Str.startswith path "/products/" = true ->
  length (Str.split "/" 2 path) = 3.
Proof.
  intros H. apply orb_true_iff in H as [H|H];
    apply startswith_inv in H as [rest ->]; reflexivity.
Qed.

Lemma slug_rule_prefix (path : string) :
  slug_rule path =
  Str.startswith path "/product/" || Str.startswith path "/products/".
Proof.
  unfold slug_rule.
  destruct (Str.startswith path "/product/" || Str.startswith path "/products/")
    eqn:H; [|reflexivity].
  rewrite (split_after_prefix _ H). reflexivity.
Qed.

Lemma slug_rule_contains (path : string) :
  slug_rule path = true -> Str.contains "product" path = true.
Proof.
  rewrite slug_rule_prefix. intros H. apply contains_spec.
  apply orb_true_iff in H as [H|H]; apply startswith_inv in H as [rest ->].
  - exists "/", ("/" +:+ rest). reflexivity.
  - exists "/", ("s/" +:+ rest). reflexivity.
Qed.

(** ** Facts on [parse_qs] *)

Lemma parse_qs_fold_key (key : string) (pairs : list (string * string))
      (acc : gmap string (list string)) :
  is_Some
    (foldl
       (fun (parsed_result : gmap string (list string)) '(name, value) =>
          match parsed_result !! name with
          | Some values => <[name := (values ++ [value])%list]> parsed_result
          | None => <[name := [value]]> parsed_result
          end)
       acc pairs !! key)
  <-> is_Some (acc !! key) \/ exists value, In (key, value) pairs.
Proof.
  revert acc. induction pairs as [|[name value] pairs IH]; intros acc; simpl.
  - split; [auto|]. intros [H|[? []]]. exact H.
  - rewrite IH. split.
    + intros [H|[v Hv]]; [|right; eauto].
      destruct (acc !! name) eqn:Hn;
        apply lookup_insert_is_Some in H as [->|[_ H]]; eauto.
    + intros [H|[v [Hv|Hv]]]; [| |right; eauto].
      * left. destruct (acc !! name) eqn:Hn;
          apply lookup_insert_is_Some;
          destruct (decide (name = key)); auto.
      * injection Hv as -> ->. left.
        destruct (acc !! key) eqn:Hn; apply lookup_insert_is_Some; auto.
Qed.

(** A key is in the dict of [parse_qs] exactly when [parse_qsl] yields a
    pair with that name. *)
Lemma dict_contains_parse_qs (key qs : string) :
  dict_contains key (parse_qs qs) = true
  <-> exists value, In (key, value) (parse_qsl qs).
Proof.
  unfold dict_contains, parse_qs.
  rewrite bool_decide_eq_true, parse_qs_fold_key, lookup_empty.
  split; [intros [[? H]|H]; [discriminate|exact H] | auto].
Qed.

(** ** [do_GET] by its guards *)

Lemma do_GET_rules (self : SlugRewriteHandler) :
  do_GET self =
  if slug_rule (request_path self) then Rewrite (request_query self)
  else if id_rule (request_path self) (request_query self) then Reject self
  else if bare_rule (request_path self) (request_query self) then Reject self
  else PassThrough self.
Proof. reflexivity. Qed.

Lemma contains_products_product (path : string) :
  Str.contains "product" path = false -> Str.contains "products" path = false.
Proof.
  intros H. destruct (Str.contains "products" path) eqn:Hs; [|reflexivity].
  apply contains_spec in Hs as (a & b & ->).
  rewrite <- H. symmetry. apply contains_spec.
  exists a, ("s" +:+ b). reflexivity.
Qed.

(** The prefix alone decides the rewrite: the length test never fails. *)
Lemma prefix_rewrites (self : SlugRewriteHandler) :
  Str.startswith (request_path self) "/product/"
  || Str.startswith (request_path self) "/products/" = true ->
  do_GET self = Rewrite (request_query self).
Proof.
  intros H. rewrite do_GET_rules, slug_rule_prefix, H. reflexivity.
Qed.

Lemma prefix_of_slug_path (path s : string) :
  path = "/product/" +:+ s \/ path = "/products/" +:+ s ->
  Str.startswith path "/product/" || Str.startswith path "/products/" = true.
Proof.
  intros [-> | ->].
  - rewrite startswith_app. reflexivity.
  - rewrite (startswith_app "/products/"). apply orb_true_r.
Qed.

Lemma target_query_rewritten (query : string) :
  target_query (rewritten_path query) = query.
Proof. destruct query; reflexivity. Qed.

(** ** The rules of the handler *)


(** C3. The slug rewrite is tested first: a path made of a product prefix
    and a non-empty slug is rewritten even when the query holds a key
    [id]; the request is not rejected. *)
Theorem slug_rewrite_before_id_block (self : SlugRewriteHandler) (s : string) :
  s <> "" ->
  request_path self = "/product/" +:+ s
  \/ request_path self = "/products/" +:+ s ->
  dict_contains "id" (parse_qs (request_query self)) = true ->
  do_GET self = Rewrite (request_query self) /\ do_GET self <> Reject self.
Proof.
  intros _ Hpath _.
  assert (H : do_GET self = Rewrite (request_query self)).
  { apply prefix_rewrites. exact (prefix_of_slug_path _ s Hpath). }
  split; [exact H|]. rewrite H. unfold Rewrite, Reject. intros E.
  inversion E.
Qed.

(** The ID block off the two prefixes: when the tests of lines 29-32 fail,
    the query holds a key [id] and the path has ["product"] or ["products"]
    as a substring, anywhere, the answer is
    [send_error(404, "Product not found")]: [self.path] is left alone and
    the static file handler is not called. *)
Theorem id_parameter_block (self : SlugRewriteHandler) :
  slug_rule (request_path self) = false ->
  dict_contains "id" (parse_qs (request_query self)) = true ->
  (exists a b, request_path self = a +:+ "product" +:+ b)
  \/ (exists a b, request_path self = a +:+ "products" +:+ b) ->
  do_GET self = Reject self /\ snd (do_GET self) <> super_do_GET.
Proof.
  intros Hslug Hid Hsub.
  assert (H : do_GET self = Reject self).
  { rewrite do_GET_rules, Hslug. unfold id_rule. rewrite Hid.
    destruct Hsub as [Hsub|Hsub]; apply contains_spec in Hsub;
      rewrite Hsub; [reflexivity|].
    rewrite orb_true_r. reflexivity. }
  split; [exact H|]. rewrite H. discriminate.
Qed.

(** C5. On the path ["/product.html"], with no key [id] in the query (so
    that the first two rules do not apply), the request is rejected with
    404 exactly when the query string is empty; with a non-empty query it
    is handed to the static file handler unchanged. *)
Theorem bare_page_block (self : SlugRewriteHandler) :
  request_path self = "/product.html" ->
  dict_contains "id" (parse_qs (request_query self)) = false ->
  (do_GET self = Reject self <-> request_query self = "")
  /\ (request_query self <> "" -> do_GET self = PassThrough self).
Proof.
  intros Hpath Hid.
  assert (H : do_GET self =
              if Str.truthy (request_query self)
              then PassThrough self else Reject self).
  { rewrite do_GET_rules. unfold id_rule, bare_rule.
    rewrite Hpath, Hid. simpl. destruct (Str.truthy _); reflexivity. }
  rewrite H. destruct (request_query self) as [|c q]; simpl.
  - split; [split; reflexivity | congruence].
  - split; [|reflexivity]. split; [|discriminate].
    unfold PassThrough, Reject. intros E. inversion E.
Qed.

(** C6. Whenever [do_GET] ends in the static file handler, the target it
    serves carries the query of the request verbatim: either [self.path]
    is the request's own, untouched, or it is ["/product.html"] followed,
    when the query is not empty, by ["?"] and the query string as parsed,
    so that the query component of the new target is the original one. *)
Theorem query_forwarded_verbatim (self self' : SlugRewriteHandler) :
  do_GET self = (self', super_do_GET) ->
  (slug_rule (request_path self) = false /\ self' = self)
  \/ (slug_rule (request_path self) = true
      /\ path self' =
         "/product.html"
         +:+ (if Str.truthy (request_query self)
              then "?" +:+ request_query self else "")
      /\ target_query (path self') = request_query self).
Proof.
  rewrite do_GET_rules.
  destruct (slug_rule (request_path self)).
  - intros E. injection E as <-. right.
    split; [reflexivity|]. split; [reflexivity|].
    apply target_query_rewritten.
  - destruct (id_rule _ _); [discriminate|].
    destruct (bare_rule _ _); [discriminate|].
    intros E. injection E as <-. left. split; reflexivity.
Qed.

(** The default off the two prefixes: when the tests of lines 29-32, of
    line 40 and of line 46 all fail, [do_GET] hands the request to the
    static file handler with [self.path] unchanged. *)
Theorem default_pass_through (self : SlugRewriteHandler) :
  slug_rule (request_path self) = false ->
  id_rule (request_path self) (request_query self) = false ->
  ~ (request_path self = "/product.html" /\ request_query self = "") ->
  do_GET self = PassThrough self.
Proof.
  intros Hslug Hid Hbare. rewrite do_GET_rules, Hslug, Hid.
  destruct (bare_rule _ _) eqn:Hb; [|reflexivity].
  exfalso. apply Hbare. unfold bare_rule in Hb.
  apply andb_true_iff in Hb as [Hp Hq].
  apply String.eqb_eq in Hp. apply negb_true_iff, truthy_false in Hq.
  split; assumption.
Qed.

(** C8. The decision is a function of the parsed path and the query
    string alone: two requests that agree on both end in the same action,
    and either both leave [self.path] untouched or both overwrite it with
    the same rewritten target. *)
Theorem decision_function_of_path_and_query (self1 self2 : SlugRewriteHandler) :
  request_path self1 = request_path self2 ->
  request_query self1 = request_query self2 ->
  snd (do_GET self1) = snd (do_GET self2)
  /\ ((fst (do_GET self1) = self1 /\ fst (do_GET self2) = self2)
      \/ (fst (do_GET self1) = fst (do_GET self2)
          /\ path (fst (do_GET self1)) =
             rewritten_path (request_query self1))).
Proof.
  intros Hp Hq. rewrite !do_GET_rules, <- Hp, <- Hq.
  destruct (slug_rule _); [split; [reflexivity|right; split; reflexivity]|].
  destruct (id_rule _ _); [split; [reflexivity|left; split; reflexivity]|].
  destruct (bare_rule _ _); split; try reflexivity; left; split; reflexivity.
Qed.

(** A blank [id] off the two prefixes: a raw query string ["id="] yields no
    key at all in [parse_qs]; on a path that contains ["product"] and on
    which the tests of lines 29-32 fail, neither block fires and the
    request is handed to the static file handler unchanged. *)
Theorem blank_id_not_blocked (self : SlugRewriteHandler) :
  (exists a b, request_path self = a +:+ "product" +:+ b) ->
  slug_rule (request_path self) = false ->
  request_query self = "id=" ->
  dict_contains "id" (parse_qs (request_query self)) = false
  /\ do_GET self = PassThrough self.
Proof.
  intros _ Hslug Hq. rewrite do_GET_rules, Hslug.
  unfold id_rule, bare_rule. rewrite Hq.
  split; [reflexivity|]. simpl. rewrite andb_false_r. reflexivity.
Qed.

(** C10. Matching is case-sensitive: a path without the lowercase
    substring ["product"], such as ["/Product/x"], is neither rewritten
    nor rejected, whatever the query, also with a key [id]; the request
    is handed to the static file handler unchanged. *)
Theorem matching_is_case_sensitive (self : SlugRewriteHandler) :
  request_path self = "/Product/x"
  \/ Str.contains "product" (request_path self) = false ->
  slug_rule (request_path self) = false
  /\ id_rule (request_path self) (request_query self) = false
  /\ do_GET self = PassThrough self.
Proof.
  intros H.
  assert (Hc : Str.contains "product" (request_path self) = false).
  { destruct H as [-> | H]; [reflexivity | exact H]. }
  assert (Hslug : slug_rule (request_path self) = false).
  { destruct (slug_rule _) eqn:E; [|reflexivity].
    apply slug_rule_contains in E. congruence. }
  assert (Hid : id_rule (request_path self) (request_query self) = false).
  { unfold id_rule.
    rewrite Hc, (contains_products_product _ Hc). apply andb_false_r. }
  split; [exact Hslug|]. split; [exact Hid|].
  rewrite do_GET_rules, Hslug, Hid.
  destruct (bare_rule _ _) eqn:Hb; [|reflexivity].
  unfold bare_rule in Hb. apply andb_true_iff in Hb as [Hp _].
  apply String.eqb_eq in Hp. rewrite Hp in Hc. discriminate.
Qed.

(** ** Further facts on the handler *)

Lemma slug_rule_false_iff (path : string) :
  slug_rule path = false
  <-> ~ (exists rest,
           path = "/product/" +:+ rest \/ path = "/products/" +:+ rest).
Proof.
  rewrite slug_rule_prefix. split.
  - intros H [rest Hrest].
    rewrite (prefix_of_slug_path _ rest Hrest) in H. discriminate.
  - intros H.
    destruct (Str.startswith path "/product/") eqn:H1;
      [exfalso; apply H; apply startswith_inv in H1 as [rest ->]; eauto|].
    destruct (Str.startswith path "/products/") eqn:H2;
      [exfalso; apply H; apply startswith_inv in H2 as [rest ->]; eauto|].
    reflexivity.
Qed.

Lemma prefix_decided (path : string) :
  (exists rest,
      path = "/product/" +:+ rest \/ path = "/products/" +:+ rest)
  \/ ~ (exists rest,
          path = "/product/" +:+ rest \/ path = "/products/" +:+ rest).
Proof.
  destruct (slug_rule path) eqn:H.
  - left. rewrite slug_rule_prefix in H.
    apply orb_true_iff in H as [H|H];
      apply startswith_inv in H as [rest ->]; eauto.
  - right. apply slug_rule_false_iff. exact H.
Qed.

(** What a pair of [parse_qsl] comes from: a field between [&]s that splits
    at its first [=] into a name and a value that is not blank. *)
Lemma parse_qsl_pair (qs key v : string) :
  In (key, v) (parse_qsl qs)
  <-> exists field name value,
        In field (Str.split_all "&" qs)
        /\ Str.split "=" 1 field = [name; value]
        /\ value <> ""
        /\ unquote (Str.replace "+" " " name) = key
        /\ unquote (Str.replace "+" " " value) = v.
Proof.
  unfold parse_qsl. rewrite in_flat_map. split.
  - intros (field & Hfield & Hin).
    destruct (Str.truthy field); [|simpl in Hin; contradiction].
    change (negb true) with false in Hin. cbv iota in Hin.
    destruct (Str.split "=" 1 field) as [|name [|value [|? ?]]] eqn:Hsplit;
      try (simpl in Hin; contradiction).
    destruct value as [|c value]; simpl in Hin; [contradiction|].
    destruct Hin as [Hin|[]]. injection Hin as <- <-.
    exists field, name, (String c value). repeat split; auto; discriminate.
  - intros (field & name & value & Hfield & Hsplit & Hvalue & <- & <-).
    exists field. split; [exact Hfield|].
    destruct field as [|c field]; [discriminate Hsplit|].
    simpl Str.truthy. cbv iota. simpl negb. cbv iota. rewrite Hsplit.
    destruct value; [congruence|]. left. reflexivity.
Qed.


(** X2. [do_GET] ends in [send_error] with no other status and message than
    404 and ["Product not found"], and exactly when the path has neither
    prefix and either the query holds a key [id] and the path contains
    ["product"], or the path is ["/product.html"] and the query string is
    empty. *)
Theorem rejection_exactly (self : SlugRewriteHandler)
        (code : nat) (message : string) :
  snd (do_GET self) = send_error code message
  <-> code = 404
      /\ message = "Product not found"
      /\ Str.startswith (request_path self) "/product/" = false
      /\ Str.startswith (request_path self) "/products/" = false
      /\ ((dict_contains "id" (parse_qs (request_query self)) = true
           /\ Str.contains "product" (request_path self) = true)
          \/ (request_path self = "/product.html"
              /\ request_query self = "")).
Proof.
  rewrite do_GET_rules, slug_rule_prefix. unfold id_rule, bare_rule.
  destruct (Str.startswith (request_path self) "/product/");
    [simpl; split; [discriminate | intros (_ & _ & ? & _); discriminate]|].
  destruct (Str.startswith (request_path self) "/products/");
    [simpl; split; [discriminate | intros (_ & _ & _ & ? & _); discriminate]|].
  simpl orb at 1. cbv iota.
  destruct (dict_contains "id" (parse_qs (request_query self))) eqn:Hid;
    destruct (Str.contains "product" (request_path self)) eqn:Hc;
    try rewrite (contains_products_product _ Hc); simpl.
  - split; [intros E; injection E as <- <-; intuition
            | intros (-> & -> & _); reflexivity].
  - destruct (String.eqb_spec (request_path self) "/product.html") as [Hp|Hp].
    + rewrite Hp in Hc. discriminate.
    + simpl. split; [discriminate|]. intros (_ & _ & _ & _ & [[? ?]|[? _]]);
        [discriminate | contradiction].
  - destruct (String.eqb_spec (request_path self) "/product.html") as [Hp|Hp];
      destruct (request_query self) eqn:Hq; simpl.
    + split; [intros E; injection E as <- <-; intuition
            | intros (-> & -> & _); reflexivity].
    + split; [discriminate|]. intros (_ & _ & _ & _ & [[? ?]|[_ ?]]);
        discriminate.
    + split; [discriminate|]. intros (_ & _ & _ & _ & [[? ?]|[? _]]);
        [discriminate | contradiction].
    + split; [discriminate|]. intros (_ & _ & _ & _ & [[? ?]|[? _]]);
        [discriminate | contradiction].
  - destruct (String.eqb_spec (request_path self) "/product.html") as [Hp|Hp].
    + rewrite Hp in Hc. discriminate.
    + simpl. split; [discriminate|]. intros (_ & _ & _ & _ & [[? ?]|[? _]]);
        [discriminate | contradiction].
Qed.

(** X3. A key is in the dict that [do_GET] tests at line 40 exactly when one
    of the fields of the query string between [&]s splits at its first [=]
    into a name that decodes to the key and a value that is not blank. *)
Theorem query_key_exactly (key qs : string) :
  dict_contains key (parse_qs qs) = true
  <-> exists field name value,
        In field (Str.split_all "&" qs)
        /\ Str.split "=" 1 field = [name; value]
        /\ value <> ""
        /\ unquote (Str.replace "+" " " name) = key.
Proof.
  rewrite dict_contains_parse_qs. split.
  - intros [v H]. apply parse_qsl_pair in H
      as (field & name & value & ? & ? & ? & ? & _).
    exists field, name, value. auto.
  - intros (field & name & value & ? & ? & ? & ?).
    exists (unquote (Str.replace "+" " " value)). apply parse_qsl_pair.
    exists field, name, value. auto.
Qed.

(** X4. A query string that is not empty and in which every field with an
    [=] has a blank value (["id="], ["id"], ["id=&x="]) triggers neither
    block: unless the slug rule rewrites it, the request reaches the static
    file handler with [self.path] unchanged, on any path. *)
Theorem blank_values_pass_through (self : SlugRewriteHandler) :
  (forall field name value,
      In field (Str.split_all "&" (request_query self)) ->
      Str.split "=" 1 field = [name; value] ->
      value = "") ->
  request_query self <> "" ->
  slug_rule (request_path self) = false ->
  parse_qsl (request_query self) = []
  /\ do_GET self = PassThrough self.
Proof.
  intros Hblank Hq Hslug.
  assert (Hnil : parse_qsl (request_query self) = []).
  { destruct (parse_qsl (request_query self)) as [|[k v] l] eqn:E;
      [reflexivity|].
    assert (Hin : In (k, v) (parse_qsl (request_query self)))
      by (rewrite E; left; reflexivity).
    apply parse_qsl_pair in Hin
      as (field & name & value & Hf & Hs & Hv & _).
    exfalso. apply Hv. exact (Hblank _ _ _ Hf Hs). }
  split; [exact Hnil|].
  rewrite do_GET_rules, Hslug. unfold id_rule, bare_rule, parse_qs.
  rewrite Hnil. apply truthy_true in Hq. rewrite Hq.
  simpl. rewrite andb_false_r. reflexivity.
Qed.

(** X11. The bare page is served only by the rewrite: when [urlparse]
    reads the target ["/product.html"] as that path with an empty query, a
    call of [do_GET] that ends in the static file handler with [self.path]
    equal to ["/product.html"] was made on a parsed path that starts with
    one of the two prefixes, with or without anything after the prefix, and
    on an empty query string. *)
Theorem bare_page_only_by_rewrite (self : SlugRewriteHandler) :
  request_path {| path := "/product.html" |} = "/product.html" ->
  request_query {| path := "/product.html" |} = "" ->
  do_GET self = ({| path := "/product.html" |}, super_do_GET) ->
  (exists rest,
      request_path self = "/product/" +:+ rest
      \/ request_path self = "/products/" +:+ rest)
  /\ request_query self = "".
Proof.
  intros Hp Hq. rewrite do_GET_rules.
  destruct (slug_rule (request_path self)) eqn:Hslug.
  - intros E. split.
    + destruct (slug_rule_false_iff (request_path self)) as [_ H].
      destruct (prefix_decided (request_path self)) as [Hpre|Hpre];
        [exact Hpre|].
      rewrite (H Hpre) in Hslug. discriminate.
    + unfold Rewrite, rewritten_path in E.
      destruct (request_query self); [reflexivity|discriminate E].
  - destruct (id_rule _ _) eqn:Hid; [discriminate|].
    destruct (bare_rule _ _) eqn:Hbare; [discriminate|].
    intros E. injection E as ->. exfalso.
    unfold bare_rule in Hbare. rewrite Hp, Hq in Hbare. discriminate.
Qed.

End Handler.

(** ** The port selection of [main] *)

Section StartupFacts.

Local Open Scope list_scope.

Variable int : string -> option Z.
Variable isdigit : string -> bool.

Lemma list_index_first (x : string) (pre post : list string) :
  x ∉ pre -> list_index x (pre ++ x :: post) = inr (length pre).
Proof.
  induction pre as [|y pre IH]; intros H; simpl.
  - rewrite String.eqb_refl. reflexivity.
  - apply not_elem_of_cons in H as [Hxy Hpre].
    destruct (String.eqb_spec y x) as [->|_]; [congruence|].
    rewrite (IH Hpre). reflexivity.
Qed.

Lemma getitem_after (pre post : list string) (x : string) :
  getitem (pre ++ x :: post) (length pre + 1) =
  match post with
  | [] => inl IndexError
  | arg :: _ => inr arg
  end.
Proof.
  unfold getitem. rewrite lookup_app_r by lia.
  replace (length pre + 1 - length pre) with 1 by lia.
  destruct post; reflexivity.
Qed.

Lemma port_option_present (pre rest : list string) :
  bool_decide ("--port" ∈ pre ++ "--port" :: rest) = true.
Proof. apply bool_decide_eq_true. set_solver. Qed.

(** X5. [--port N]: when the argument that follows the first ["--port"] of
    [sys.argv] is read by [int], its value becomes [PORT] and nothing is
    printed, whatever else the command line holds. *)
Theorem port_option_read (PORT0 : Z) (pre post : list string)
        (arg : string) (n : Z) :
  "--port" ∉ pre ->
  int arg = Some n ->
  main_select_port int isdigit PORT0 (pre ++ "--port" :: arg :: post)
  = inr (n, []).
Proof.
  intros Hpre Hint. unfold main_select_port.
  rewrite port_option_present, (list_index_first _ _ _ Hpre), getitem_after.
  unfold int_or_raise. rewrite Hint.
  destruct (1 <? length (pre ++ "--port" :: arg :: post))%nat eqn:Hlen;
    [reflexivity|].
  apply Nat.ltb_ge in Hlen. rewrite length_app in Hlen. simpl in Hlen. lia.
Qed.

(** X6. When nothing follows the first ["--port"], or what follows is not
    read by [int], [PORT] keeps its value and the warning is printed; an
    argument in position 1 is not looked at. *)
Theorem port_option_unreadable (PORT0 : Z) (pre rest : list string) :
  "--port" ∉ pre ->
  1 < length (pre ++ "--port" :: rest) ->
  rest = [] \/ (exists arg post, rest = arg :: post /\ int arg = None) ->
  main_select_port int isdigit PORT0 (pre ++ "--port" :: rest)
  = inr (PORT0, ["Invalid port number. Using default port 8000."]).
Proof.
  intros Hpre Hlen Hrest. unfold main_select_port.
  apply Nat.ltb_lt in Hlen. rewrite Hlen.
  rewrite port_option_present, (list_index_first _ _ _ Hpre), getitem_after.
  destruct Hrest as [-> | (arg & post & -> & Hint)]; [reflexivity|].
  unfold int_or_raise. rewrite Hint. reflexivity.
Qed.

(** X7. Without ["--port"], an argument in position 1 that [isdigit]
    accepts is passed to [int] outside any [try]: its value becomes [PORT],
    or the [ValueError] of [int] leaves [main]. *)
Theorem positional_port (PORT0 : Z) (prog arg : string) (rest : list string) :
  "--port" ∉ prog :: arg :: rest ->
  isdigit arg = true ->
  main_select_port int isdigit PORT0 (prog :: arg :: rest)
  = match int arg with
    | Some n => inr (n, [])
    | None => inl ValueError
    end.
Proof.
  intros Hno Hdigit. unfold main_select_port.
  rewrite (bool_decide_eq_false_2 _ Hno). simpl.
  rewrite Hdigit. unfold int_or_raise. destruct (int arg); reflexivity.
Qed.

(** X8. Without ["--port"], and without an argument in position 1 that
    [isdigit] accepts, [PORT] keeps its value and nothing is printed: no
    other argument and no other position is looked at. *)
Theorem other_arguments_ignored (PORT0 : Z) (argv : list string) :
  "--port" ∉ argv ->
  (forall arg, argv !! 1 = Some arg -> isdigit arg = false) ->
  main_select_port int isdigit PORT0 argv = inr (PORT0, []).
Proof.
  intros Hno Hdigit. unfold main_select_port.
  rewrite (bool_decide_eq_false_2 _ Hno).
  destruct (1 <? length argv)%nat eqn:Hlen; [|reflexivity].
  unfold getitem. destruct (argv !! 1) as [arg|] eqn:Harg.
  - rewrite (Hdigit arg eq_refl). reflexivity.
  - apply Nat.ltb_lt in Hlen. apply lookup_ge_None in Harg. lia.
Qed.

(** X9. When the port selection returns, [PORT] either keeps its value or
    is what [int] reads off an argument in a position from 1 on; and the
    only thing ever printed is the one warning, with [PORT] unchanged and
    ["--port"] on the command line. *)
Theorem port_comes_from_argument (PORT0 p : Z) (argv out : list string) :
  main_select_port int isdigit PORT0 argv = inr (p, out) ->
  (p = PORT0
   \/ exists i arg, 1 <= i /\ argv !! i = Some arg /\ int arg = Some p)
  /\ (out = []
      \/ (out = ["Invalid port number. Using default port 8000."]
          /\ p = PORT0 /\ "--port" ∈ argv)).
Proof.
  unfold main_select_port.
  destruct (1 <? length argv)%nat;
    [|intros E; injection E as <- <-; auto].
  destruct (bool_decide ("--port" ∈ argv)) eqn:Hport.
  - apply bool_decide_eq_true in Hport.
    destruct (list_index "--port" argv) as [[]|port_index];
      try (intros E; injection E as <- <-; auto).
    unfold getitem.
    destruct (argv !! (port_index + 1)) as [arg|] eqn:Harg;
      [|intros E; injection E as <- <-; auto].
    unfold int_or_raise. destruct (int arg) as [n|] eqn:Hint;
      intros E; injection E as <- <-; [|auto].
    split; [right|left; reflexivity].
    exists (port_index + 1), arg. split; [lia|auto].
  - unfold getitem. destruct (argv !! 1) as [arg|] eqn:Harg; [|discriminate].
    destruct (isdigit arg); [|intros E; injection E as <- <-; auto].
    unfold int_or_raise. destruct (int arg) as [n|] eqn:Hint; [|discriminate].
    intros E; injection E as <- <-. split; [right|left; reflexivity].
    exists 1, arg. auto.
Qed.

(** X10. An exception leaves the port selection exactly when there is no
    ["--port"], [isdigit] accepts the argument in position 1 and [int]
    does not read it; it is the [ValueError] of [int].  With ["--port"] on
    the command line nothing is raised, and [IndexError] never is. *)
Theorem port_selection_raises_exactly (PORT0 : Z) (argv : list string)
        (e : exception) :
  main_select_port int isdigit PORT0 argv = inl e
  <-> e = ValueError
      /\ ("--port" ∉ argv)
      /\ exists arg,
           argv !! 1 = Some arg /\ isdigit arg = true /\ int arg = None.
Proof.
  unfold main_select_port. split.
  - destruct (1 <? length argv)%nat eqn:Hlen; [|discriminate].
    destruct (bool_decide ("--port" ∈ argv)) eqn:Hport.
    + destruct (list_index "--port" argv) as [[]|port_index];
        try discriminate.
      destruct (getitem argv (port_index + 1)) as [[]|arg]; try discriminate.
      destruct (int_or_raise int arg) as [[]|n]; discriminate.
    + apply bool_decide_eq_false in Hport. unfold getitem.
      destruct (argv !! 1) as [arg|] eqn:Harg.
      * destruct (isdigit arg) eqn:Hdigit; [|discriminate].
        unfold int_or_raise. destruct (int arg) eqn:Hint; [discriminate|].
        intros E; injection E as <-. eauto 6.
      * apply Nat.ltb_lt in Hlen.
        apply lookup_ge_None in Harg. lia.
  - intros (-> & Hno & arg & Harg & Hdigit & Hint).
    rewrite (bool_decide_eq_false_2 _ Hno).
    assert (Hlen : (1 <? length argv)%nat = true).
    { apply Nat.ltb_lt. apply lookup_lt_Some in Harg. exact Harg. }
    rewrite Hlen. unfold getitem, int_or_raise.
    rewrite Harg, Hdigit, Hint. reflexivity.
Qed.

End StartupFacts.

(** ** Concrete runs *)

(** C2. A GET to the bare prefix, ["/product/"] or ["/products/"], is
    rewritten like any other path with the prefix: the split of
    ["/product/"] at two cuts is [["", "product", ""]], of length 3, so the
    length test of line 32 passes with an empty third part, and [self.path]
    becomes ["/product.html"]. *)
Theorem empty_slug_is_rewritten :
  Str.split "/" 2 "/product/" = [""; "product"; ""]
  /\ do_GET urlparse_origin_form unquote_plain {| path := "/product/" |}
     = ({| path := "/product.html" |}, super_do_GET)
  /\ do_GET urlparse_origin_form unquote_plain {| path := "/products/" |}
     = ({| path := "/product.html" |}, super_do_GET)
  /\ do_GET urlparse_origin_form unquote_plain {| path := "/product/?id=1" |}
     = ({| path := "/product.html?id=1" |}, super_do_GET).
Proof. repeat split; reflexivity. Qed.

(** The bare prefixes carry no slug: neither is a prefix followed by a
    non-empty string. *)
Lemma bare_prefix_has_no_slug (path : string) :
  path = "/product/" \/ path = "/products/" ->
  ~ (exists s,
        s <> "" /\ (path = "/product/" +:+ s \/ path = "/products/" +:+ s)).
Proof.
  intros Hpath (s & Hs & H). destruct s as [|c s]; [congruence|].
  destruct Hpath as [-> | ->]; destruct H as [H|H];
    cbv [String.append] in H; congruence.
Qed.

(** C4. A GET to ["/product/?id=1"]: the parsed path is the bare prefix,
    which is no prefix followed by a non-empty slug, the query holds the key
    [id] and the path contains ["product"]; yet the request is not answered
    with 404: the length test of line 32 passes, [self.path] is rewritten
    and the static file handler is called. *)
Theorem id_block_skipped_on_bare_prefix :
  request_path urlparse_origin_form {| path := "/product/?id=1" |}
  = "/product/"
  /\ request_query urlparse_origin_form {| path := "/product/?id=1" |}
     = "id=1"
  /\ ~ (exists s,
          s <> ""
          /\ ("/product/" = "/product/" +:+ s
              \/ "/product/" = "/products/" +:+ s))
  /\ dict_contains "id" (parse_qs unquote_plain "id=1") = true
  /\ Str.contains "product" "/product/" = true
  /\ do_GET urlparse_origin_form unquote_plain {| path := "/product/?id=1" |}
     = ({| path := "/product.html?id=1" |}, super_do_GET)
  /\ do_GET urlparse_origin_form unquote_plain {| path := "/product/?id=1" |}
     <> Reject {| path := "/product/?id=1" |}.
Proof.
  repeat split; try reflexivity.
  - apply bare_prefix_has_no_slug. left. reflexivity.
  - discriminate.
Qed.

(** C7. A GET to ["/product/"]: the parsed path is no prefix followed by a
    non-empty slug, the test of line 40 fails and the request is not the
    bare page with an empty query; yet the request is not handed over
    unchanged: the length test of line 32 passes and [self.path] is
    overwritten with ["/product.html"]. *)
Theorem bare_prefix_not_passed_through :
  request_path urlparse_origin_form {| path := "/product/" |} = "/product/"
  /\ request_query urlparse_origin_form {| path := "/product/" |} = ""
  /\ ~ (exists s,
          s <> ""
          /\ ("/product/" = "/product/" +:+ s
              \/ "/product/" = "/products/" +:+ s))
  /\ id_rule unquote_plain "/product/" "" = false
  /\ ~ ("/product/" = "/product.html" /\ "" = "")
  /\ do_GET urlparse_origin_form unquote_plain {| path := "/product/" |}
     = ({| path := "/product.html" |}, super_do_GET)
  /\ do_GET urlparse_origin_form unquote_plain {| path := "/product/" |}
     <> PassThrough {| path := "/product/" |}.
Proof.
  repeat split; try reflexivity.
  - apply bare_prefix_has_no_slug. left. reflexivity.
  - intros [H _]. discriminate H.
  - discriminate.
Qed.

(** C9. A GET to ["/product/?id="]: the parsed path contains ["product"]
    and is no prefix followed by a non-empty slug, and the raw query string
    is ["id="]; the request is not rejected, but it is not handed over
    unchanged either: the length test of line 32 passes and [self.path] is
    overwritten with ["/product.html?id="]. *)
Theorem blank_id_on_bare_prefix_rewritten :
  request_path urlparse_origin_form {| path := "/product/?id=" |}
  = "/product/"
  /\ request_query urlparse_origin_form {| path := "/product/?id=" |} = "id="
  /\ Str.contains "product" "/product/" = true
  /\ ~ (exists s,
          s <> ""
          /\ ("/product/" = "/product/" +:+ s
              \/ "/product/" = "/products/" +:+ s))
  /\ dict_contains "id" (parse_qs unquote_plain "id=") = false
  /\ do_GET urlparse_origin_form unquote_plain {| path := "/product/?id=" |}
     = ({| path := "/product.html?id=" |}, super_do_GET)
  /\ do_GET urlparse_origin_form unquote_plain {| path := "/product/?id=" |}
     <> PassThrough {| path := "/product/?id=" |}.
Proof.
  repeat split; try reflexivity.
  - apply bare_prefix_has_no_slug. left. reflexivity.
  - discriminate.
Qed.


Lemma slug_rewrite_before_id_block_witness :
  do_GET urlparse_origin_form unquote_plain {| path := "/product/x?id=5" |}
  = ({| path := "/product.html?id=5" |}, super_do_GET)
  /\ do_GET urlparse_origin_form unquote_plain {| path := "/product/x?id=5" |}
     <> Reject {| path := "/product/x?id=5" |}.
Proof.
  apply (slug_rewrite_before_id_block urlparse_origin_form unquote_plain
           {| path := "/product/x?id=5" |} "x").
  - discriminate.
  - left. reflexivity.
  - reflexivity.
Defined.

Lemma id_parameter_block_witness :
  do_GET urlparse_origin_form unquote_plain
    {| path := "/not-a-product/x?id=1" |}
  = ({| path := "/not-a-product/x?id=1" |}, send_error 404 "Product not found")
  /\ snd (do_GET urlparse_origin_form unquote_plain
            {| path := "/not-a-product/x?id=1" |}) <> super_do_GET.
Proof.
  apply (id_parameter_block urlparse_origin_form unquote_plain
           {| path := "/not-a-product/x?id=1" |}).
  - reflexivity.
  - reflexivity.
  - left. exists "/not-a-", "/x". reflexivity.
Defined.

Lemma bare_page_block_witness :
  (do_GET urlparse_origin_form unquote_plain
     {| path := "/product.html?foo=bar" |}
   = Reject {| path := "/product.html?foo=bar" |}
   <-> "foo=bar" = "")
  /\ ("foo=bar" <> "" ->
      do_GET urlparse_origin_form unquote_plain
        {| path := "/product.html?foo=bar" |}
      = ({| path := "/product.html?foo=bar" |}, super_do_GET)).
Proof.
  apply (bare_page_block urlparse_origin_form unquote_plain
           {| path := "/product.html?foo=bar" |}).
  - reflexivity.
  - reflexivity.
Defined.

Lemma query_forwarded_verbatim_witness :
  (slug_rule "/product/blue-widget" = false
   /\ {| path := "/product.html?color=red&size=2" |}
      = {| path := "/product/blue-widget?color=red&size=2" |})
  \/ (slug_rule "/product/blue-widget" = true
      /\ "/product.html?color=red&size=2"
         = "/product.html" +:+ "?" +:+ "color=red&size=2"
      /\ target_query "/product.html?color=red&size=2" = "color=red&size=2").
Proof.
  apply (query_forwarded_verbatim urlparse_origin_form unquote_plain
           {| path := "/product/blue-widget?color=red&size=2" |}
           {| path := "/product.html?color=red&size=2" |}).
  reflexivity.
Defined.

Lemma default_pass_through_witness :
  do_GET urlparse_origin_form unquote_plain {| path := "/other.html" |}
  = ({| path := "/other.html" |}, super_do_GET).
Proof.
  apply (default_pass_through urlparse_origin_form unquote_plain
           {| path := "/other.html" |}).
  - reflexivity.
  - reflexivity.
  - intros [H _]. discriminate H.
Defined.

Lemma decision_function_of_path_and_query_witness :
  snd (do_GET urlparse_origin_form unquote_plain
         {| path := "/product.html?id=42" |})
  = snd (do_GET urlparse_origin_form unquote_plain
           {| path := "/product.html?id=42#top" |}).
Proof.
  apply (decision_function_of_path_and_query urlparse_origin_form unquote_plain
           {| path := "/product.html?id=42" |}
           {| path := "/product.html?id=42#top" |}).
  - reflexivity.
  - reflexivity.
Defined.

Lemma blank_id_not_blocked_witness :
  dict_contains "id" (parse_qs unquote_plain "id=") = false
  /\ do_GET urlparse_origin_form unquote_plain {| path := "/product.html?id=" |}
     = ({| path := "/product.html?id=" |}, super_do_GET).
Proof.
  apply (blank_id_not_blocked urlparse_origin_form unquote_plain
           {| path := "/product.html?id=" |}).
  - exists "/", ".html". reflexivity.
  - reflexivity.
  - reflexivity.
Defined.

Lemma matching_is_case_sensitive_witness :
  slug_rule "/Product/x" = false
  /\ id_rule unquote_plain "/Product/x" "id=5" = false
  /\ do_GET urlparse_origin_form unquote_plain {| path := "/Product/x?id=5" |}
     = ({| path := "/Product/x?id=5" |}, super_do_GET).
Proof.
  apply (matching_is_case_sensitive urlparse_origin_form unquote_plain
           {| path := "/Product/x?id=5" |}).
  left. reflexivity.
Defined.

Lemma blank_values_pass_through_witness :
  parse_qsl unquote_plain "id=&id" = []
  /\ do_GET urlparse_origin_form unquote_plain
       {| path := "/product.html?id=&id" |}
     = ({| path := "/product.html?id=&id" |}, super_do_GET).
Proof.
  apply (blank_values_pass_through urlparse_origin_form unquote_plain
           {| path := "/product.html?id=&id" |}).
  - intros field name value [<- | [<- | []]] H.
    + injection H as _ <-. reflexivity.
    + discriminate H.
  - discriminate.
  - reflexivity.
Defined.

Lemma port_option_read_witness :
  main_select_port int_decimal isdigit_ascii PORT
    ["server.py"; "9000"; "--port"; "8080"]
  = inr (8080%Z, []).
Proof.
  apply (port_option_read int_decimal isdigit_ascii PORT
           ["server.py"; "9000"] [] "8080" 8080%Z).
  - apply (bool_decide_eq_false_1 ("--port" ∈ _)). reflexivity.
  - reflexivity.
Defined.

Lemma port_option_unreadable_witness :
  main_select_port int_decimal isdigit_ascii PORT
    ["server.py"; "9000"; "--port"; "abc"]
  = inr (8000%Z, ["Invalid port number. Using default port 8000."]).
Proof.
  apply (port_option_unreadable int_decimal isdigit_ascii PORT
           ["server.py"; "9000"] ["abc"]).
  - apply (bool_decide_eq_false_1 ("--port" ∈ _)). reflexivity.
  - simpl. lia.
  - right. exists "abc", []. split; reflexivity.
Defined.

Lemma positional_port_witness :
  main_select_port int_decimal isdigit_ascii PORT ["server.py"; "9000"]
  = inr (9000%Z, []).
Proof.
  apply (positional_port int_decimal isdigit_ascii PORT "server.py" "9000" []).
  - apply (bool_decide_eq_false_1 ("--port" ∈ _)). reflexivity.
  - reflexivity.
Defined.

Lemma other_arguments_ignored_witness :
  main_select_port int_decimal isdigit_ascii PORT ["server.py"; "-p"; "9000"]
  = inr (8000%Z, []).
Proof.
  apply (other_arguments_ignored int_decimal isdigit_ascii PORT
           ["server.py"; "-p"; "9000"]).
  - apply (bool_decide_eq_false_1 ("--port" ∈ _)). reflexivity.
  - intros arg H. injection H as <-. reflexivity.
Defined.

Lemma port_comes_from_argument_witness :
  (8080%Z = PORT
   \/ exists i arg,
        1 <= i
        /\ ["server.py"; "--port"; "8080"] !! i = Some arg
        /\ int_decimal arg = Some 8080%Z)
  /\ (@nil string = []
      \/ ([] = ["Invalid port number. Using default port 8000."]
          /\ 8080%Z = PORT /\ "--port" ∈ ["server.py"; "--port"; "8080"])).
Proof.
  apply (port_comes_from_argument int_decimal isdigit_ascii PORT 8080%Z
           ["server.py"; "--port"; "8080"] []).
  reflexivity.
Defined.

Lemma bare_page_only_by_rewrite_witness :
  (exists rest,
      "/products/blue-widget" = "/product/" +:+ rest
      \/ "/products/blue-widget" = "/products/" +:+ rest)
  /\ request_query urlparse_origin_form
       {| path := "/products/blue-widget" |} = "".
Proof.
  apply (bare_page_only_by_rewrite urlparse_origin_form unquote_plain
           {| path := "/products/blue-widget" |}); reflexivity.
Defined.
